(** * dsp/modules/llm.py: the [LLM] completion client

    A shallow embedding of the class [LLM] of [dsp/modules/llm.py] and the
    properties of its request/response lifecycle: prompt-to-message
    conversion, the provider call, the history log, the completed-only
    filter and the transformation of choices to the output dictionaries.

    Python objects are modelled as follows.
    - Values of type [Any] (log-probability data, provider parameters) are
      terms of [pyval], with Python's truth value [truthy].
    - Dictionaries with string keys are [gmap string pyval]; a key that is
      absent is a lookup that returns [None], which differs from a key
      bound to [PyNone].
    - Methods that mutate [self] or raise are computations of the monad
      [M]: they take the instance and the world and return either an
      exception or a value together with the instance and world reached.
      A raised exception keeps the mutations made before it.
    - The class attribute [LLM.history] is one list of the world, which
      every instance reads and appends to. *)

From stdpp Require Import gmap strings list fin_maps.

Open Scope string_scope.
Open Scope list_scope.

(** ** Python values *)

#[warnings="-register-all"]
Inductive pyval : Type :=
  | PyNone
  | PyBool (b : bool)
  | PyInt (z : Z)
  | PyStr (s : string)
  | PyList (l : list pyval)
  | PyDict (d : list (string * pyval))
  | PyObj (fields : list (string * pyval)).

(** [bool(v)]: [None], [False], [0], the empty string, list and dict are
    false; an object without [__bool__] or [__len__] is true. *)
Definition truthy (v : pyval) : bool :=
  match v with
  | PyNone => false
  | PyBool b => b
  | PyInt z => negb (Z.eqb z 0)
  | PyStr s => negb (String.eqb s "")
  | PyList l => match l with [] => false | _ => true end
  | PyDict d => match d with [] => false | _ => true end
  | PyObj _ => true
  end.

(** ** The data of [litellm.types.utils] and [dsp.modules.schemas] *)

(** [ChatMessage(role=..., content=...)]. *)
Record ChatMessage : Type := mkChatMessage {
  role : string;
  content : string;
}.

(** The message of a choice: [choice.message.content]. *)
Record Message : Type := mkMessage {
  message_content : string;
}.

(** [Choices]: the fields this module reads. [finish_reason] is a string
    or [None]; [logprobs] is untyped in the source.

    Every choice is taken to have the attribute [logprobs] set, to [None]
    when it carries no data. On a choice object where the attribute is not
    set at all, the read [choice.logprobs] of the transformation raises
    [AttributeError] when the flag is set, after the request, the history
    entry and the usage record; that path is not part of this model. The
    properties below that speak of what a call returns are stated for calls
    that return, and the properties of the history, of the log and of the
    requests do not depend on how the call ends. *)
Record Choices : Type := mkChoices {
  finish_reason : option string;
  message : Message;
  logprobs : pyval;
}.

(** [Usage]: [usage_data.get("total_tokens")]. *)
Record Usage : Type := mkUsage {
  total_tokens : pyval;
}.

(** [ModelResponse]: [response.choices] and [response.get("usage")]. *)
Record ModelResponse : Type := mkModelResponse {
  choices : list Choices;
  usage : option Usage;
}.

(** [LLMModelParams]: the attributes this module reads and writes, and the
    remaining provider parameters (model, temperature, credentials). *)
Record LLMModelParams : Type := mkLLMModelParams {
  prompt : option string;
  messages : option (list ChatMessage);
  only_completed : bool;
  return_sorted : bool;
  params_logprobs : bool;  (* the attribute [logprobs] of the parameters *)
  other_params : gmap string pyval;
}.

(** ** The pure methods *)

(** [c.finish_reason != "length"]. *)
Definition not_length (c : Choices) : Prop := finish_reason c ≠ Some "length".

#[global] Instance not_length_dec (c : Choices) : Decision (not_length c).
Proof. unfold not_length. apply _. Defined.

(** [filter_only_completed]: the comprehension, then [if len(filtered_choices)]. *)
Definition filter_only_completed (choices : list Choices) : list Choices :=
  let filtered_choices := filter not_length choices in
  match length filtered_choices with
  | O => choices
  | S _ => filtered_choices
  end.

(** [get_text_from_choice]. *)
Definition get_text_from_choice (choice : Choices) : string :=
  message_content (message choice).

(** [dspy_choices[-1][key] = v]: the assignment into the last dictionary of
    the list. On the empty list Python raises [IndexError]; the loop below
    appends before it assigns, so that case is never reached. *)
Definition set_in_last (key : string) (v : pyval)
    (l : list (gmap string pyval)) : list (gmap string pyval) :=
  alter (insert key v) (pred (length l)) l.

(** One iteration of the loop of [transform_choices_to_dspy_model_response]. *)
Definition transform_step (add_logprobs : bool)
    (dspy_choices : list (gmap string pyval)) (choice : Choices)
    : list (gmap string pyval) :=
  let dspy_choices := dspy_choices ++ [ {[ "text" := PyStr (get_text_from_choice choice) ]} ] in
  if add_logprobs then
    set_in_last "logprobs"
      (if truthy (logprobs choice) then logprobs choice else PyNone)
      dspy_choices
  else dspy_choices.

(** [transform_choices_to_dspy_model_response]: the loop over [choices],
    from the empty list. *)
Definition transform_choices_to_dspy_model_response
    (choices : list Choices) (add_logprobs : bool) : list (gmap string pyval) :=
  fold_left (transform_step add_logprobs) choices [].

(** The dictionary the loop builds for one choice. *)
Definition dspy_choice (add_logprobs : bool) (choice : Choices) : gmap string pyval :=
  let d : gmap string pyval := {[ "text" := PyStr (get_text_from_choice choice) ]} in
  if add_logprobs then
    <[ "logprobs" := if truthy (logprobs choice) then logprobs choice else PyNone ]> d
  else d.

(** The filter as the specification words it: drop every choice whose
    finish reason is "length", keep the others in order. *)
Fixpoint drop_truncated (choices : list Choices) : list Choices :=
  match choices with
  | [] => []
  | c :: cs =>
      match finish_reason c with
      | Some r => if String.eqb r "length" then drop_truncated cs else c :: drop_truncated cs
      | None => c :: drop_truncated cs
      end
  end.

(** ** Exceptions, the world and the instance *)

(** The exceptions a call can end with. [ProviderError e] stands for the
    exception [e] that [litellm.completion] raised, whatever its class; it
    reaches the caller as it is. *)
Inductive exn : Type :=
  | AssertionError (msg : string)
  | AttributeError (msg : string)
  | TypeError (msg : string)
  | ProviderError (e : string).

(** One dictionary appended to the history: the keys ["prompt"],
    ["response"] (the response's [to_dict()]), ["raw_kwargs"] and
    ["kwargs"]. *)
Record HistoryEntry : Type := mkHistoryEntry {
  h_prompt : string;
  h_response : ModelResponse;
  h_raw_kwargs : gmap string pyval;
  h_kwargs : gmap string pyval;
}.

(** What lives outside the instances: the list bound to the class
    attribute [history] in the body of [class LLM], the requests that
    reached [litellm.completion], and the records given to [logger.debug]. *)
Record World : Type := mkWorld {
  LLM_history : list HistoryEntry;
  provider_calls : list (gmap string pyval);
  debug_log : list pyval;
}.

(** An instance: [__init__] binds [llm_params] and nothing else. *)
Record LLM : Type := mkLLM {
  llm_params : LLMModelParams;
}.

(** [self.history]: the instance holds no attribute of that name, so the
    lookup reaches the class attribute. *)
Definition history (self : LLM) (w : World) : list HistoryEntry :=
  LLM_history w.

(** ** The monad of methods *)

Definition M (A : Type) : Type := LLM * World → (exn + A) * (LLM * World).

Definition ret {A : Type} (a : A) : M A := λ s, (inr a, s).

Definition raise {A : Type} (e : exn) : M A := λ s, (inl e, s).

Definition bind {A B : Type} (m : M A) (k : A → M B) : M B :=
  λ s, match m s with
       | (inl e, s') => (inl e, s')
       | (inr a, s') => k a s'
       end.

Notation "'do' x <- m ;; k" := (bind m (λ x, k))
  (at level 10, x name, m at level 99, k at level 200, only parsing).

(** [assert b, msg], with assertions enabled. *)
Definition py_assert (b : bool) (msg : string) : M unit :=
  if b then ret tt else raise (AssertionError msg).

(** Reading and assigning the attributes of [self.llm_params]. *)
Definition read {A : Type} (field : LLMModelParams → A) : M A :=
  λ s, (inr (field (llm_params s.1)), s).

Definition assign (update : LLMModelParams → LLMModelParams) : M unit :=
  λ s, (inr tt, (mkLLM (update (llm_params s.1)), s.2)).

Definition with_prompt (v : option string) (p : LLMModelParams) : LLMModelParams :=
  mkLLMModelParams v (messages p) (only_completed p) (return_sorted p)
    (params_logprobs p) (other_params p).

Definition with_messages (v : option (list ChatMessage)) (p : LLMModelParams)
    : LLMModelParams :=
  mkLLMModelParams (prompt p) v (only_completed p) (return_sorted p)
    (params_logprobs p) (other_params p).

Definition with_only_completed (v : bool) (p : LLMModelParams) : LLMModelParams :=
  mkLLMModelParams (prompt p) (messages p) v (return_sorted p)
    (params_logprobs p) (other_params p).

Definition get_messages : M (option (list ChatMessage)) := read messages.
Definition get_only_completed : M bool := read only_completed.
Definition get_return_sorted : M bool := read return_sorted.
Definition get_logprobs : M bool := read params_logprobs.
Definition set_prompt (v : string) : M unit := assign (with_prompt (Some v)).
Definition set_messages (v : list ChatMessage) : M unit := assign (with_messages (Some v)).
Definition set_only_completed (v : bool) : M unit := assign (with_only_completed v).

(** [bool(self.llm_params.messages)]: [None] and the empty list are false. *)
Definition messages_truthy (m : option (list ChatMessage)) : bool :=
  match m with
  | Some (_ :: _) => true
  | _ => false
  end.

(** [self.llm_params.messages.append(m)]; on [None] Python raises
    [AttributeError]. *)
Definition messages_append (m : ChatMessage) : M unit :=
  do ms <- get_messages ;;
  match ms with
  | Some l => set_messages (l ++ [m])
  | None => raise (AttributeError "'NoneType' object has no attribute 'append'")
  end.

(** [self.history.append(entry)]: the list appended to is the class
    attribute. *)
Definition history_append (entry : HistoryEntry) : M unit :=
  λ s, (inr tt,
        (s.1, mkWorld (LLM_history s.2 ++ [entry]) (provider_calls s.2) (debug_log s.2))).

(** [logger.debug(...)] with the value formatted into the record. *)
Definition logger_debug (v : pyval) : M unit :=
  λ s, (inr tt,
        (s.1, mkWorld (LLM_history s.2) (provider_calls s.2) (debug_log s.2 ++ [v]))).

(** A call that unpacks two dictionaries [a] and [b] into its keyword
    arguments: a keyword given by both raises [TypeError] before the callee
    is entered; otherwise the callee receives the union. Python's message
    names the callee and the key; only the kind of the exception is
    modelled, with a text that names neither. *)
Definition call_kwargs (a b : gmap string pyval) : M (gmap string pyval) :=
  if decide (a ##ₘ b) then ret (a ∪ b)
  else raise (TypeError "got multiple values for keyword argument").

(** ** The methods of [LLM] *)

Section Client.

(** [LLMModelParams.to_json(ignore_sensitive)], of [dsp.modules.schemas]:
    its class is outside this module, so the serializer is a parameter. *)
Variable to_json : bool → LLMModelParams → gmap string pyval.

(** [litellm.completion]: the external provider. Its answer may depend on
    the requests it has received before; it either raises or returns a
    response. *)
Variable completion :
  list (gmap string pyval) → gmap string pyval → string + ModelResponse.

(** The call of [litellm.completion] with the keyword arguments [args],
    recorded in the world. *)
Definition litellm_completion (args : gmap string pyval) : M ModelResponse :=
  λ s,
    let w := mkWorld (LLM_history s.2) (provider_calls s.2 ++ [args]) (debug_log s.2) in
    match completion (provider_calls s.2) args with
    | inl e => (inl (ProviderError e), (s.1, w))
    | inr response => (inr response, (s.1, w))
    end.

(** [__init__]: [self.llm_params = llm_params]. *)
Definition __init__ (llm_params : LLMModelParams) : LLM := mkLLM llm_params.

Definition update_messages_with_prompt (prompt : string) : M unit :=
  do _ <- set_prompt prompt ;;
  do ms <- get_messages ;;
  do _ <- (if negb (messages_truthy ms) then set_messages [] else ret tt) ;;
  messages_append (mkChatMessage "user" prompt).

Definition basic_request (prompt : string) (kwargs : gmap string pyval)
    : M ModelResponse :=
  do _ <- update_messages_with_prompt prompt ;;
  do json <- read (to_json false) ;;
  do args <- call_kwargs json kwargs ;;
  do response <- litellm_completion args ;;
  do redacted <- read (to_json true) ;;
  do _ <- history_append (mkHistoryEntry prompt response kwargs redacted) ;;
  ret response.

Definition request (prompt : string) (kwargs : gmap string pyval)
    : M ModelResponse :=
  basic_request prompt kwargs.

Definition log_usage (response : ModelResponse) : M unit :=
  match usage response with
  | Some usage_data => logger_debug (total_tokens usage_data)
  | None => ret tt
  end.

Definition __call__ (prompt : string) (only_completed : bool)
    (kwargs : gmap string pyval) : M (list (gmap string pyval)) :=
  do _ <- set_only_completed only_completed ;;
  do oc <- get_only_completed ;;
  do _ <- py_assert oc "for now" ;;
  do rs <- get_return_sorted ;;
  do _ <- py_assert (negb rs) "for now" ;;
  do response <- request prompt kwargs ;;
  do _ <- log_usage response ;;
  do oc <- get_only_completed ;;
  do lp <- get_logprobs ;;
  ret (transform_choices_to_dspy_model_response
         (if oc then filter_only_completed (choices response) else choices response)
         lp).

(** A caller's sequence of calls on one client: each call's prompt,
    [only_completed] argument and keyword arguments. The calls run one
    after the other, whether the one before returned or raised. *)
Fixpoint run_calls (calls : list (string * bool * gmap string pyval))
    (s : LLM * World) : LLM * World :=
  match calls with
  | [] => s
  | (prompt, only_completed, kwargs) :: rest =>
      run_calls rest (__call__ prompt only_completed kwargs s).2
  end.

End Client.

(** ** What a call leaves behind, in closed form *)

(** The messages after [if not messages: messages = []]. *)
Definition messages_or_empty (m : option (list ChatMessage)) : list ChatMessage :=
  match m with
  | Some l => l
  | None => []
  end.

(** The parameters after [update_messages_with_prompt prompt]. *)
Definition updated_params (prompt : string) (p : LLMModelParams) : LLMModelParams :=
  with_messages
    (Some (messages_or_empty (messages p) ++ [mkChatMessage "user" prompt]))
    (with_prompt (Some prompt) p).

(** The records [log_usage] gives to the logger. *)
Definition usage_records (response : ModelResponse) : list pyval :=
  match usage response with
  | Some usage_data => [total_tokens usage_data]
  | None => []
  end.

(** ** Concrete parameters, responses and providers *)

Definition message_to_json (m : ChatMessage) : pyval :=
  PyDict [("role", PyStr (role m)); ("content", PyStr (content m))].

(** Modelled from the spec: [LLMModelParams.to_json] of
    [dsp.modules.schemas], which is not among the sources. The
    configuration serialized, with the credentials left out when
    [ignore_sensitive] is set. *)
Definition sample_to_json (ignore_sensitive : bool) (p : LLMModelParams)
    : gmap string pyval :=
  let d :=
    <[ "prompt" := match prompt p with Some s => PyStr s | None => PyNone end ]>
      (<[ "messages" := match messages p with
                        | Some l => PyList (map message_to_json l)
                        | None => PyNone
                        end ]>
         (other_params p)) in
  if ignore_sensitive then delete "api_key" d else d.

Definition sample_params : LLMModelParams :=
  mkLLMModelParams None None true false false
    (<[ "model" := PyStr "gpt-3.5-turbo" ]>
       (<[ "temperature" := PyInt 0 ]> {[ "api_key" := PyStr "secret" ]})).

Definition sample_logprobs : pyval :=
  PyDict [("tokens", PyList [PyStr "B"])].

Definition choice_A : Choices := mkChoices (Some "length") (mkMessage "A") PyNone.
Definition choice_B : Choices := mkChoices (Some "stop") (mkMessage "B") sample_logprobs.
Definition choice_C : Choices := mkChoices None (mkMessage "C") (PyDict []).

Definition sample_response : ModelResponse :=
  mkModelResponse [choice_A; choice_B] (Some (mkUsage (PyInt 7))).

(** A provider that answers every request with the same outcome. *)
Definition constant_provider (outcome : string + ModelResponse)
    : list (gmap string pyval) → gmap string pyval → string + ModelResponse :=
  λ _ _, outcome.

(** A provider that fails its first request and answers the later ones. *)
Definition flaky_provider
    : list (gmap string pyval) → gmap string pyval → string + ModelResponse :=
  λ earlier _,
    match earlier with
    | [] => inl "timeout"
    | _ => inr sample_response
    end.

Definition empty_world : World := mkWorld [] [] [].

(** Parameters with the [logprobs] flag set, with [return_sorted] set, and
    the parameters of a second client. *)
Definition logprobs_params : LLMModelParams :=
  mkLLMModelParams None None true false true (other_params sample_params).

Definition sorted_params : LLMModelParams :=
  mkLLMModelParams None None true true false (other_params sample_params).

Definition second_params : LLMModelParams :=
  mkLLMModelParams None None true false false {[ "model" := PyStr "gpt-4" ]}.

(** Keyword arguments: a key the configuration does not serialize, and a
    key it does. *)
Definition fresh_kwargs : gmap string pyval := {[ "max_tokens" := PyInt 16 ]}.
Definition colliding_kwargs : gmap string pyval := {[ "temperature" := PyInt 1 ]}.

(** A completed choice with no log-probability data, and responses built
    from the choices above. *)
Definition choice_D : Choices := mkChoices (Some "stop") (mkMessage "D") PyNone.

Definition response_without_logprobs : ModelResponse :=
  mkModelResponse [choice_D] None.

Definition truncated_response : ModelResponse :=
  mkModelResponse [choice_A; choice_A] None.

Definition mixed_response : ModelResponse :=
  mkModelResponse [choice_B; choice_A; choice_C] None.

(** The calls of a caller who sends three prompts, the second with a
    colliding keyword argument. *)
Definition three_calls : list (string * bool * gmap string pyval) :=
  [("p1", true, ∅); ("p2", true, colliding_kwargs); ("p3", true, ∅)].

(** A response that holds no choice at all, and a caller who sends the
    same prompt three times. *)
Definition empty_response : ModelResponse := mkModelResponse [] None.

Definition repeated_calls : list (string * bool * gmap string pyval) :=
  [("hi", true, ∅); ("hi", true, ∅); ("hi", true, ∅)].

(** Log-probability data that is false in Python's sense: an empty
    dictionary. *)
Definition choice_E : Choices := mkChoices (Some "stop") (mkMessage "E") (PyDict []).

(** * Properties *)

(** ** The completed-only filter *)

Lemma filter_not_length_drop_truncated (l : list Choices) :
  filter not_length l = drop_truncated l.
Proof.
  induction l as [|c l IH]; [reflexivity|].
  cbn [drop_truncated]. destruct (finish_reason c) as [r|] eqn:Hr.
  - destruct (String.eqb r "length") eqn:Hs.
    + apply String.eqb_eq in Hs. subst r.
      rewrite filter_cons_False; [exact IH|].
      unfold not_length. rewrite Hr. intros H. by apply H.
    + apply String.eqb_neq in Hs.
      rewrite filter_cons_True; [by rewrite IH|].
      unfold not_length. rewrite Hr. congruence.
  - rewrite filter_cons_True; [by rewrite IH|].
    unfold not_length. by rewrite Hr.
Qed.

Lemma filter_only_completed_fallback (l : list Choices) :
  filter not_length l = [] → filter_only_completed l = l.
Proof. intros H. unfold filter_only_completed. by rewrite H. Qed.

Lemma filter_only_completed_some (l : list Choices) :
  filter not_length l ≠ [] → filter_only_completed l = filter not_length l.
Proof.
  intros H. unfold filter_only_completed.
  destruct (filter not_length l); [done|reflexivity].
Qed.

Lemma filter_not_length_twice (l : list Choices) :
  filter not_length (filter not_length l) = filter not_length l.
Proof.
  rewrite list_filter_filter. apply list_filter_iff. tauto.
Qed.

Lemma filter_only_completed_sublist (l : list Choices) :
  filter_only_completed l `sublist_of` l.
Proof.
  destruct (decide (filter not_length l = [])) as [H|H].
  - by rewrite filter_only_completed_fallback.
  - rewrite filter_only_completed_some by done. apply sublist_filter.
Qed.

Lemma filter_only_completed_nonempty (l : list Choices) :
  l ≠ [] → filter_only_completed l ≠ [].
Proof.
  intros Hl. destruct (decide (filter not_length l = [])) as [H|H].
  - by rewrite filter_only_completed_fallback.
  - by rewrite filter_only_completed_some.
Qed.

Lemma all_length_filter_nil (l : list Choices) :
  Forall (λ c, finish_reason c = Some "length") l → filter not_length l = [].
Proof.
  induction 1 as [|c l Hc _ IH]; [reflexivity|].
  rewrite filter_cons_False; [exact IH|].
  unfold not_length. intros H. by apply H.
Qed.

(** C8. When some choice has a finish reason other than "length", the
    filter keeps exactly the choices whose finish reason differs from
    "length": its result is the list with the truncated choices dropped,
    a choice is in the result if and only if it is in the input and is not
    truncated, and the result keeps the input's order. In particular a
    truncated choice "A" followed by a choice "B" that stopped is filtered
    to the choice "B" alone. *)
Theorem filter_only_completed_keeps_completed (choices : list Choices) :
  (∃ c, c ∈ choices ∧ finish_reason c ≠ Some "length") →
  filter_only_completed choices = drop_truncated choices
  ∧ (∀ c, c ∈ filter_only_completed choices
          ↔ c ∈ choices ∧ finish_reason c ≠ Some "length")
  ∧ filter_only_completed choices `sublist_of` choices
  ∧ (∀ lp_a lp_b : pyval,
       filter_only_completed
         [mkChoices (Some "length") (mkMessage "A") lp_a;
          mkChoices (Some "stop") (mkMessage "B") lp_b]
       = [mkChoices (Some "stop") (mkMessage "B") lp_b]).
Proof.
  intros (c0 & Hin & Hc0).
  assert (Hne : filter not_length choices ≠ []).
  { intros Hnil. eapply filter_nil_not_elem_of; [exact Hnil|exact Hc0|exact Hin]. }
  split; [|split; [|split; [|reflexivity]]].
  - rewrite filter_only_completed_some by exact Hne.
    apply filter_not_length_drop_truncated.
  - intros c. rewrite filter_only_completed_some by exact Hne.
    rewrite list_elem_of_filter. unfold not_length. tauto.
  - apply filter_only_completed_sublist.
Qed.

(** The input of the specification's example: a truncated choice "A"
    followed by a completed choice "B" is filtered to the choice "B" alone. *)
Lemma filter_only_completed_keeps_completed_example :
  (∃ c, c ∈ [choice_A; choice_B] ∧ finish_reason c ≠ Some "length")
  ∧ filter_only_completed [choice_A; choice_B] = [choice_B].
Proof.
  assert (H : ∃ c, c ∈ [choice_A; choice_B] ∧ finish_reason c ≠ Some "length").
  { exists choice_B. split; [set_solver|discriminate]. }
  split; [exact H|].
  exact (proj1 (filter_only_completed_keeps_completed [choice_A; choice_B] H)).
Defined.

(** C10. The completed-only filter is idempotent. *)
Theorem filter_only_completed_idempotent (choices : list Choices) :
  filter_only_completed (filter_only_completed choices)
  = filter_only_completed choices.
Proof.
  destruct (decide (filter not_length choices = [])) as [H|H].
  - rewrite (filter_only_completed_fallback choices H).
    exact (filter_only_completed_fallback choices H).
  - rewrite (filter_only_completed_some choices) by exact H.
    rewrite filter_only_completed_some;
      [apply filter_not_length_twice | by rewrite filter_not_length_twice].
Qed.

(** ** The transformation loop *)

Lemma transform_step_snoc (flag : bool) (acc : list (gmap string pyval)) (c : Choices) :
  transform_step flag acc c = acc ++ [dspy_choice flag c].
Proof.
  unfold transform_step, dspy_choice, set_in_last. destruct flag; [|reflexivity].
  rewrite length_app. cbn [length].
  replace (pred (length acc + 1)) with (length acc + 0)%nat by lia.
  by rewrite alter_app_r.
Qed.

Lemma transform_loop (flag : bool) (cs : list Choices) (acc : list (gmap string pyval)) :
  fold_left (transform_step flag) cs acc = acc ++ map (dspy_choice flag) cs.
Proof.
  revert acc. induction cs as [|c cs IH]; intros acc; cbn [fold_left map].
  - by rewrite app_nil_r.
  - rewrite IH, transform_step_snoc, <- app_assoc. reflexivity.
Qed.

Lemma transform_choices_map (cs : list Choices) (flag : bool) :
  transform_choices_to_dspy_model_response cs flag = map (dspy_choice flag) cs.
Proof. unfold transform_choices_to_dspy_model_response. apply transform_loop. Qed.

Lemma dspy_choice_text (flag : bool) (c : Choices) :
  dspy_choice flag c !! "text" = Some (PyStr (message_content (message c))).
Proof.
  unfold dspy_choice, get_text_from_choice. destruct flag.
  - rewrite lookup_insert_ne by done. apply lookup_singleton_eq.
  - apply lookup_singleton_eq.
Qed.

Lemma dspy_choice_logprobs (flag : bool) (c : Choices) :
  dspy_choice flag c !! "logprobs"
  = if flag then Some (if truthy (logprobs c) then logprobs c else PyNone) else None.
Proof.
  unfold dspy_choice. destruct flag.
  - apply lookup_insert_eq.
  - by rewrite lookup_singleton_ne.
Qed.

(** ** Running the methods *)

Section ClientProperties.

Variable to_json : bool → LLMModelParams → gmap string pyval.
Variable completion :
  list (gmap string pyval) → gmap string pyval → string + ModelResponse.

Lemma update_messages_with_prompt_run (prompt : string) (self : LLM) (w : World) :
  update_messages_with_prompt prompt (self, w)
  = (inr tt, (mkLLM (updated_params prompt (llm_params self)), w)).
Proof.
  destruct self as [p]. destruct p as [pr ms oc rs lp other].
  destruct ms as [[|m l]|]; reflexivity.
Qed.

Lemma basic_request_run (prompt : string) (kwargs : gmap string pyval)
    (self : LLM) (w : World) :
  basic_request to_json completion prompt kwargs (self, w)
  = let p := updated_params prompt (llm_params self) in
    if decide (to_json false p ##ₘ kwargs) then
      let args := to_json false p ∪ kwargs in
      match completion (provider_calls w) args with
      | inl e =>
          (inl (ProviderError e),
           (mkLLM p, mkWorld (LLM_history w) (provider_calls w ++ [args]) (debug_log w)))
      | inr response =>
          (inr response,
           (mkLLM p,
            mkWorld (LLM_history w ++ [mkHistoryEntry prompt response kwargs (to_json true p)])
              (provider_calls w ++ [args]) (debug_log w)))
      end
    else
      (inl (TypeError "got multiple values for keyword argument"), (mkLLM p, w)).
Proof.
  unfold basic_request. unfold bind at 1.
  rewrite update_messages_with_prompt_run. cbv zeta.
  unfold bind, read, call_kwargs, litellm_completion, history_append, ret, raise.
  cbn [fst snd llm_params].
  destruct (decide (to_json false (updated_params prompt (llm_params self)) ##ₘ kwargs));
    [|reflexivity].
  cbn [fst snd llm_params LLM_history provider_calls debug_log].
  destruct (completion (provider_calls w) _); reflexivity.
Qed.

Lemma call_run (prompt : string) (oc : bool) (kwargs : gmap string pyval)
    (self : LLM) (w : World) :
  __call__ to_json completion prompt oc kwargs (self, w)
  = let p1 := with_only_completed oc (llm_params self) in
    if negb oc then (inl (AssertionError "for now"), (mkLLM p1, w))
    else if return_sorted (llm_params self) then
      (inl (AssertionError "for now"), (mkLLM p1, w))
    else
      let p := updated_params prompt p1 in
      if decide (to_json false p ##ₘ kwargs) then
        let args := to_json false p ∪ kwargs in
        match completion (provider_calls w) args with
        | inl e =>
            (inl (ProviderError e),
             (mkLLM p, mkWorld (LLM_history w) (provider_calls w ++ [args]) (debug_log w)))
        | inr response =>
            (inr (map (dspy_choice (params_logprobs (llm_params self)))
                    (filter_only_completed (choices response))),
             (mkLLM p,
              mkWorld
                (LLM_history w ++ [mkHistoryEntry prompt response kwargs (to_json true p)])
                (provider_calls w ++ [args])
                (debug_log w ++ usage_records response)))
        end
      else
        (inl (TypeError "got multiple values for keyword argument"), (mkLLM p, w)).
Proof.
  destruct self as [[pr ms oc0 rs lp other]].
  destruct oc; [|reflexivity]. destruct rs; [reflexivity|].
  unfold __call__, request.
  remember (basic_request to_json completion prompt kwargs) as br eqn:Hbr.
  unfold bind, set_only_completed, get_only_completed, get_return_sorted,
    assign, read, py_assert, raise, ret.
  cbn [fst snd llm_params with_only_completed only_completed return_sorted negb
       messages params_logprobs other_params].
  subst br. rewrite basic_request_run. cbv zeta.
  cbn [fst snd llm_params with_only_completed only_completed return_sorted negb
       messages params_logprobs other_params].
  destruct (decide (_ ##ₘ kwargs)); [|reflexivity].
  destruct (completion _ _) as [e|response]; [reflexivity|].
  unfold log_usage, usage_records, logger_debug, get_logprobs, read, ret.
  rewrite <- transform_choices_map.
  destruct (usage response); cbn [fst snd]; rewrite ?app_nil_r; reflexivity.
Qed.

(** What is known of a call that returned. *)
Lemma call_success_inv (prompt : string) (oc : bool) (kwargs : gmap string pyval)
    (self : LLM) (w : World) (out : list (gmap string pyval)) :
  (__call__ to_json completion prompt oc kwargs (self, w)).1 = inr out →
  ∃ response,
    oc = true
    ∧ return_sorted (llm_params self) = false
    ∧ to_json false (updated_params prompt (with_only_completed true (llm_params self)))
        ##ₘ kwargs
    ∧ completion (provider_calls w)
        (to_json false (updated_params prompt (with_only_completed true (llm_params self)))
           ∪ kwargs) = inr response
    ∧ out = map (dspy_choice (params_logprobs (llm_params self)))
              (filter_only_completed (choices response))
    ∧ LLM_history (__call__ to_json completion prompt oc kwargs (self, w)).2.2
      = LLM_history w
        ++ [mkHistoryEntry prompt response kwargs
              (to_json true
                 (updated_params prompt (with_only_completed true (llm_params self))))].
Proof.
  rewrite call_run. cbv zeta.
  destruct oc; [|discriminate]. cbn [negb].
  destruct (return_sorted (llm_params self)); [discriminate|].
  destruct (decide (_ ##ₘ kwargs)) as [Hd|]; [|discriminate].
  destruct (completion _ _) as [e|response] eqn:Hc; [discriminate|].
  cbn [fst snd LLM_history]. intros [= <-].
  exists response. repeat split; done.
Qed.

(** The instance a call leaves behind when both assertions pass, whatever
    the provider then does. *)
Lemma call_passing_instance (prompt : string) (kwargs : gmap string pyval)
    (self : LLM) (w : World) :
  return_sorted (llm_params self) = false →
  (__call__ to_json completion prompt true kwargs (self, w)).2.1
  = mkLLM (updated_params prompt (with_only_completed true (llm_params self))).
Proof.
  intros Hrs. rewrite call_run. cbv zeta. cbn [negb]. rewrite Hrs.
  destruct (decide (_ ##ₘ kwargs)); [|reflexivity].
  destruct (completion _ _); reflexivity.
Qed.

(** The history after one call: the old history, followed by one entry
    exactly when the provider was called and returned a response. *)
Lemma call_history (prompt : string) (oc : bool) (kwargs : gmap string pyval)
    (self : LLM) (w : World) :
  let r := __call__ to_json completion prompt oc kwargs (self, w) in
  (∃ out response,
     r.1 = inr out
     ∧ provider_calls r.2.2
       = provider_calls w ++ [to_json false (llm_params r.2.1) ∪ kwargs]
     ∧ completion (provider_calls w) (to_json false (llm_params r.2.1) ∪ kwargs)
       = inr response
     ∧ LLM_history r.2.2
       = LLM_history w
         ++ [mkHistoryEntry prompt response kwargs (to_json true (llm_params r.2.1))])
  ∨ (∃ e,
       r.1 = inl (ProviderError e)
       ∧ provider_calls r.2.2
         = provider_calls w ++ [to_json false (llm_params r.2.1) ∪ kwargs]
       ∧ completion (provider_calls w) (to_json false (llm_params r.2.1) ∪ kwargs)
         = inl e
       ∧ LLM_history r.2.2 = LLM_history w)
  ∨ (∃ e,
       r.1 = inl e
       ∧ provider_calls r.2.2 = provider_calls w
       ∧ LLM_history r.2.2 = LLM_history w).
Proof.
  cbv zeta. rewrite call_run. cbv zeta.
  destruct oc; cbn [negb]; [|right; right; eexists; done].
  destruct (return_sorted (llm_params self)); [right; right; eexists; done|].
  destruct (decide (_ ##ₘ kwargs)); [|right; right; eexists; done].
  destruct (completion _ _) as [e|response] eqn:Hc.
  - right; left. exists e. cbn [fst snd llm_params LLM_history provider_calls]. done.
  - left. eexists _, response. cbn [fst snd llm_params LLM_history provider_calls]. done.
Qed.

(** ** The precondition assertions *)

(** C5. A call whose configuration has [return_sorted] set, or whose
    [only_completed] argument is false, ends with the [AssertionError] of
    the assertions: the world is the one the call started in, so no request
    reached the provider and the history has no new entry; the messages and
    the prompt of the configuration are untouched as well. *)
Theorem call_fails_precondition (prompt_text : string) (only_completed : bool)
    (kwargs : gmap string pyval) (self : LLM) (w : World) :
  return_sorted (llm_params self) = true ∨ only_completed = false →
  let r := __call__ to_json completion prompt_text only_completed kwargs (self, w) in
  r.1 = inl (AssertionError "for now")
  ∧ r.2.2 = w
  ∧ provider_calls r.2.2 = provider_calls w
  ∧ LLM_history r.2.2 = LLM_history w
  ∧ messages (llm_params r.2.1) = messages (llm_params self)
  ∧ prompt (llm_params r.2.1) = prompt (llm_params self).
Proof.
  intros H. cbv zeta. rewrite call_run. cbv zeta.
  destruct only_completed; cbn [negb].
  - destruct H as [->|H]; [|discriminate]. done.
  - done.
Qed.

(** ** The parameters submitted to the provider *)

(** C1 (amended). When both assertions pass and no key of the keyword
    arguments is a key of the serialized configuration, the provider
    receives the serialized configuration together with the keyword
    arguments, every key with the value its dictionary gives it. When some
    key is in both, the call raises [TypeError]: no request reaches the
    provider and the history gets no entry. *)
Theorem call_submits_disjoint_union (prompt : string) (kwargs : gmap string pyval)
    (self : LLM) (w : World) :
  return_sorted (llm_params self) = false →
  let r := __call__ to_json completion prompt true kwargs (self, w) in
  let json := to_json false (llm_params r.2.1) in
  (json ##ₘ kwargs →
     provider_calls r.2.2 = provider_calls w ++ [json ∪ kwargs]
     ∧ (∀ k v, kwargs !! k = Some v → (json ∪ kwargs) !! k = Some v)
     ∧ (∀ k v, json !! k = Some v → (json ∪ kwargs) !! k = Some v)
     ∧ (∀ k, (json ∪ kwargs) !! k = None ↔ json !! k = None ∧ kwargs !! k = None))
  ∧ (¬ json ##ₘ kwargs →
     r.1 = inl (TypeError "got multiple values for keyword argument")
     ∧ provider_calls r.2.2 = provider_calls w
     ∧ LLM_history r.2.2 = LLM_history w).
Proof.
  intros Hrs. cbv zeta. rewrite call_passing_instance by exact Hrs.
  cbn [llm_params]. rewrite call_run. cbv zeta. cbn [negb]. rewrite Hrs.
  destruct (decide (_ ##ₘ kwargs)) as [Hd|Hd]; (split; [intros Hd'|intros Hd']); try done.
  - split; [|split; [|split]].
    + destruct (completion _ _); reflexivity.
    + intros k v Hk. apply lookup_union_Some; [exact Hd|]. by right.
    + intros k v Hk. apply lookup_union_Some; [exact Hd|]. by left.
    + intros k. apply lookup_union_None.
Qed.

(** ** The history *)

(** C7. A call whose assertions pass and whose keyword arguments collide
    with no serialized key calls the provider. When the provider answers,
    the history after the call is the history before it followed by exactly
    one entry, the entry of this exchange; when the provider raises, the
    history is the one before the call. Besides, for every call and every
    other method that runs in the world, and for every sequence of calls,
    the old history is a prefix of the new one, so that earlier entries
    keep their content and their order; one call adds at most one entry. *)
Theorem history_append_only (text : string) (kwargs : gmap string pyval)
    (self : LLM) (w : World) :
  return_sorted (llm_params self) = false →
  to_json false (updated_params text (with_only_completed true (llm_params self)))
    ##ₘ kwargs →
  let p := updated_params text (with_only_completed true (llm_params self)) in
  let after := LLM_history (__call__ to_json completion text true kwargs (self, w)).2.2 in
  match completion (provider_calls w) (to_json false p ∪ kwargs) with
  | inr response =>
      after = LLM_history w ++ [mkHistoryEntry text response kwargs (to_json true p)]
      ∧ length after = S (length (LLM_history w))
  | inl _ =>
      after = LLM_history w
      ∧ length after = length (LLM_history w)
  end
  ∧ (∀ text' oc kwargs' self' w',
       LLM_history w' `prefix_of`
         LLM_history (__call__ to_json completion text' oc kwargs' (self', w')).2.2
       ∧ (length (LLM_history (__call__ to_json completion text' oc kwargs' (self', w')).2.2)
          ≤ S (length (LLM_history w')))%nat)
  ∧ (∀ text' kwargs' self' w',
       LLM_history w' `prefix_of`
         LLM_history (basic_request to_json completion text' kwargs' (self', w')).2.2
       ∧ LLM_history w' `prefix_of`
           LLM_history (request to_json completion text' kwargs' (self', w')).2.2)
  ∧ (∀ text' self' w',
       LLM_history w' `prefix_of`
         LLM_history (update_messages_with_prompt text' (self', w')).2.2)
  ∧ (∀ response self' w',
       LLM_history w' `prefix_of` LLM_history (log_usage response (self', w')).2.2)
  ∧ (∀ calls self' w',
       LLM_history w' `prefix_of`
         LLM_history (run_calls to_json completion calls (self', w')).2).
Proof.
  intros Hrs Hd. cbv zeta.
  assert (Hcall : ∀ pr oc kw s0 w0,
    LLM_history w0 `prefix_of`
      LLM_history (__call__ to_json completion pr oc kw (s0, w0)).2.2
    ∧ (length (LLM_history (__call__ to_json completion pr oc kw (s0, w0)).2.2)
       ≤ S (length (LLM_history w0)))%nat).
  { intros pr oc kw s0 w0.
    destruct (call_history pr oc kw s0 w0) as
      [(out & response & _ & _ & _ & ->)|[(e & _ & _ & _ & ->)|(e & _ & _ & ->)]].
    - split; [by apply prefix_app_r|]. rewrite length_app. cbn [length]. lia.
    - split; [done|lia].
    - split; [done|lia]. }
  assert (Hbasic : ∀ pr kw s0 w0,
    LLM_history w0 `prefix_of`
      LLM_history (basic_request to_json completion pr kw (s0, w0)).2.2).
  { intros pr kw s0 w0. rewrite basic_request_run. cbv zeta.
    destruct (decide (_ ##ₘ kw)); [|done].
    destruct (completion _ _); cbn [fst snd LLM_history]; [done|by apply prefix_app_r]. }
  split; [|split; [|split; [|split; [|split]]]].
  - rewrite call_run. cbv zeta. cbn [negb]. rewrite Hrs.
    destruct (decide (_ ##ₘ kwargs)); [|done].
    destruct (completion _ _) as [e|response]; cbn [fst snd LLM_history].
    + done.
    + split; [reflexivity|]. rewrite length_app. cbn [length]. lia.
  - exact Hcall.
  - intros pr kw s0 w0. split; [apply Hbasic|unfold request; apply Hbasic].
  - intros pr s0 w0. by rewrite update_messages_with_prompt_run.
  - intros response s0 w0. unfold log_usage, logger_debug, ret.
    destruct (usage response); done.
  - intros calls. induction calls as [|[[pr oc] kw] calls IH]; intros s0 w0; [done|].
    cbn [run_calls].
    destruct (__call__ to_json completion pr oc kw (s0, w0)) as [res [s1 w1]] eqn:Hr.
    cbn [snd]. etrans; [|apply IH].
    destruct (Hcall pr oc kw s0 w0) as [Hp _]. by rewrite Hr in Hp.
Qed.

(** ** The messages of the configuration *)

(** C6 (amended). After a sequence of calls that all pass the assertions
    ([return_sorted] unset in the configuration, every [only_completed]
    argument true), whether the provider answered them or raised, the
    messages of the configuration are the messages it had before followed
    by one user message per call, with the prompts as contents, in the
    order of the calls; and the prompt of the configuration is the prompt
    of the last call (after no call at all, the prompt it had). *)
Theorem run_calls_accumulates_messages
    (calls : list (string * bool * gmap string pyval)) (self : LLM) (w : World) :
  return_sorted (llm_params self) = false →
  Forall (λ c, c.1.2 = true) calls →
  let after := llm_params (run_calls to_json completion calls (self, w)).1 in
  messages_or_empty (messages after)
  = messages_or_empty (messages (llm_params self))
    ++ map (λ c, mkChatMessage "user" c.1.1) calls
  ∧ length (messages_or_empty (messages after))
    = length (messages_or_empty (messages (llm_params self))) + length calls
  ∧ prompt after
    = match last calls with
      | Some c => Some c.1.1
      | None => prompt (llm_params self)
      end.
Proof.
  intros Hrs Hall. cbv zeta.
  assert (Hmsgs : messages_or_empty
      (messages (llm_params (run_calls to_json completion calls (self, w)).1))
    = messages_or_empty (messages (llm_params self))
      ++ map (λ c, mkChatMessage "user" c.1.1) calls).
  { revert self w Hrs. induction Hall as [|[[pr oc] kw] calls Hoc _ IH]; intros self w Hrs.
    - cbn. by rewrite app_nil_r.
    - cbn in Hoc. subst oc. cbn [run_calls map fst snd].
      destruct (__call__ to_json completion pr true kw (self, w)) as [res [s1 w1]] eqn:Hr.
      pose proof (call_passing_instance pr kw self w Hrs) as Hinst.
      rewrite Hr in Hinst. cbn [fst snd] in Hinst. subst s1. cbn [snd].
      rewrite IH by exact Hrs. cbn [llm_params updated_params with_messages messages
        messages_or_empty]. by rewrite <- app_assoc. }
  split; [exact Hmsgs|split].
  - rewrite Hmsgs, length_app, length_map. reflexivity.
  - clear Hmsgs. revert self w Hrs.
    induction Hall as [|[[pr oc] kw] calls Hoc Hall IH]; intros self w Hrs; [reflexivity|].
    cbn in Hoc. subst oc. cbn [run_calls].
    destruct (__call__ to_json completion pr true kw (self, w)) as [res [s1 w1]] eqn:Hr.
    pose proof (call_passing_instance pr kw self w Hrs) as Hinst.
    rewrite Hr in Hinst. cbn [fst snd] in Hinst. subst s1. cbn [snd].
    rewrite IH by exact Hrs. destruct calls as [|c calls]; [reflexivity|].
    rewrite last_cons_cons. destruct (last (c :: calls)) eqn:Hl; [reflexivity|].
    by apply last_None in Hl.
Qed.

(** ** The choices returned *)

Lemma filter_only_completed_all_pass (l : list Choices) :
  Forall not_length l → filter_only_completed l = l.
Proof.
  intros Hall.
  assert (Hf : filter not_length l = l).
  { induction Hall as [|c l Hc _ IH]; [reflexivity|].
    by rewrite filter_cons_True, IH. }
  unfold filter_only_completed. rewrite Hf. by destruct l.
Qed.

(** C4. Under the provider's guarantee that a response holds at least one
    choice, a call that returns yields at least one output dictionary; and
    when every choice of the response is truncated (finish reason
    "length"), the filter is given up: the choices used are the response's
    own, all of them. *)
Theorem call_yields_a_choice (prompt : string) (only_completed : bool)
    (kwargs : gmap string pyval) (self : LLM) (w : World)
    (out : list (gmap string pyval)) :
  (∀ earlier args response,
     completion earlier args = inr response → choices response ≠ []) →
  (__call__ to_json completion prompt only_completed kwargs (self, w)).1 = inr out →
  out ≠ []
  ∧ (1 ≤ length out)%nat
  ∧ ∃ response,
      h_response <$>
        last (LLM_history
                (__call__ to_json completion prompt only_completed kwargs (self, w)).2.2)
      = Some response
      ∧ filter_only_completed (choices response) ≠ []
      ∧ length out = length (filter_only_completed (choices response))
      ∧ (Forall (λ c, finish_reason c = Some "length") (choices response) →
         filter_only_completed (choices response) = choices response
         ∧ out = map (dspy_choice (params_logprobs (llm_params self))) (choices response)).
Proof.
  intros Hprov Hout.
  destruct (call_success_inv _ _ _ _ _ _ Hout) as
    (response & _ & _ & _ & Hc & -> & Hh).
  pose proof (filter_only_completed_nonempty _ (Hprov _ _ _ Hc)) as Hne.
  assert (Hlen : (1 ≤ length (map (dspy_choice (params_logprobs (llm_params self)))
                               (filter_only_completed (choices response))))%nat).
  { rewrite length_map. destruct (filter_only_completed (choices response)); [done|].
    cbn [length]. lia. }
  split; [|split; [exact Hlen|]].
  - intros Hnil. rewrite Hnil in Hlen. cbn in Hlen. lia.
  - exists response. rewrite Hh, last_snoc. cbn [fmap option_fmap option_map h_response].
    split; [reflexivity|]. split; [exact Hne|]. split; [by rewrite length_map|].
    intros Hall.
    rewrite (filter_only_completed_fallback _ (all_length_filter_nil _ Hall)). done.
Qed.

(** C9. The output of a call that returns follows the provider's
    response: the surviving choices are a subsequence of the response's
    choices, in the provider's order; the output has one dictionary per
    surviving choice, at the same position, and its text is the content of
    that choice's message. When every choice passes the filter, the output
    is the response's choices transformed one by one. *)
Theorem call_preserves_order (prompt : string) (only_completed : bool)
    (kwargs : gmap string pyval) (self : LLM) (w : World)
    (out : list (gmap string pyval)) :
  (__call__ to_json completion prompt only_completed kwargs (self, w)).1 = inr out →
  ∃ response,
    h_response <$>
      last (LLM_history
              (__call__ to_json completion prompt only_completed kwargs (self, w)).2.2)
    = Some response
    ∧ filter_only_completed (choices response) `sublist_of` choices response
    ∧ length out = length (filter_only_completed (choices response))
    ∧ (∀ i c, filter_only_completed (choices response) !! i = Some c →
         ∃ o, out !! i = Some o
              ∧ o !! "text" = Some (PyStr (message_content (message c))))
    ∧ (∀ i o, out !! i = Some o →
         ∃ c, filter_only_completed (choices response) !! i = Some c
              ∧ o !! "text" = Some (PyStr (message_content (message c))))
    ∧ (Forall not_length (choices response) →
       out = map (dspy_choice (params_logprobs (llm_params self))) (choices response)).
Proof.
  intros Hout.
  destruct (call_success_inv _ _ _ _ _ _ Hout) as
    (response & _ & _ & _ & Hc & -> & Hh).
  exists response. rewrite Hh, last_snoc. cbn [fmap option_fmap option_map h_response].
  split; [reflexivity|]. split; [apply filter_only_completed_sublist|].
  split; [by rewrite length_map|]. split; [|split].
  - intros i c Hi. eexists. split.
    + change (map ?f ?l) with (f <$> l). rewrite list_lookup_fmap, Hi. reflexivity.
    + apply dspy_choice_text.
  - intros i o Hi. change (map ?f ?l) with (f <$> l) in Hi.
    rewrite list_lookup_fmap in Hi.
    destruct (filter_only_completed (choices response) !! i) as [c|]; [|discriminate].
    injection Hi as <-. exists c. split; [reflexivity|apply dspy_choice_text].
  - intros Hall. by rewrite filter_only_completed_all_pass.
Qed.

(** C2 (amended). In the output of a call that returns, the key
    ["logprobs"] is present in a dictionary if and only if the [logprobs]
    flag of the configuration is set. When the flag is set the key is bound
    to the log-probability data of the source choice if that data is true
    in Python's sense, and to [None] otherwise; when the flag is unset the
    key is absent. *)
Theorem call_logprobs_field (prompt : string) (only_completed : bool)
    (kwargs : gmap string pyval) (self : LLM) (w : World)
    (out : list (gmap string pyval)) :
  (__call__ to_json completion prompt only_completed kwargs (self, w)).1 = inr out →
  ∃ response,
    h_response <$>
      last (LLM_history
              (__call__ to_json completion prompt only_completed kwargs (self, w)).2.2)
    = Some response
    ∧ length out = length (filter_only_completed (choices response))
    ∧ ∀ i c, filter_only_completed (choices response) !! i = Some c →
        ∃ o, out !! i = Some o
             ∧ (is_Some (o !! "logprobs") ↔ params_logprobs (llm_params self) = true)
             ∧ o !! "logprobs"
               = if params_logprobs (llm_params self)
                 then Some (if truthy (logprobs c) then logprobs c else PyNone)
                 else None.
Proof.
  intros Hout.
  destruct (call_success_inv _ _ _ _ _ _ Hout) as
    (response & _ & _ & _ & Hc & -> & Hh).
  exists response. rewrite Hh, last_snoc. cbn [fmap option_fmap option_map h_response].
  split; [reflexivity|]. split; [by rewrite length_map|].
  intros i c Hi. eexists. split; [|split].
  - change (map ?f ?l) with (f <$> l). rewrite list_lookup_fmap, Hi. reflexivity.
  - rewrite dspy_choice_logprobs. destruct (params_logprobs (llm_params self)).
    + split; [done|]. intros _. by eexists.
    + split; [intros [? ?]; discriminate|discriminate].
  - apply dspy_choice_logprobs.
Qed.

End ClientProperties.

(** * The properties on concrete clients *)

(** ** Examples of runs *)

(** A call that returns: the truncated choice "A" is dropped, the completed
    choice "B" is returned, and the exchange is in the history. *)
Example call_returns_completed_choice :
  __call__ sample_to_json (constant_provider (inr sample_response)) "hi" true ∅
    (mkLLM sample_params, empty_world)
  = (inr [ {[ "text" := PyStr "B" ]} ],
     (mkLLM (updated_params "hi" sample_params),
      mkWorld
        [mkHistoryEntry "hi" sample_response ∅
           (sample_to_json true (updated_params "hi" sample_params))]
        [sample_to_json false (updated_params "hi" sample_params)]
        [PyInt 7])).
Proof. vm_compute. reflexivity. Qed.

(** The provider raises on the first request and answers the second: the
    failed call leaves no entry, the next one leaves one. *)
Example history_after_failure_then_success :
  length (LLM_history
            (run_calls sample_to_json flaky_provider [("p1", true, ∅)]
               (mkLLM sample_params, empty_world)).2) = 0
  ∧ length (LLM_history
              (run_calls sample_to_json flaky_provider [("p1", true, ∅); ("p2", true, ∅)]
                 (mkLLM sample_params, empty_world)).2) = 1.
Proof. split; vm_compute; reflexivity. Qed.

(** ** The parameters submitted to the provider *)

(** With a keyword argument the configuration does not serialize, the
    provider receives the configuration's keys and the argument. *)
Lemma call_submits_disjoint_union_example :
  return_sorted (llm_params (mkLLM sample_params)) = false
  ∧ ∃ args,
      provider_calls
        (__call__ sample_to_json (constant_provider (inr sample_response)) "hi" true
           fresh_kwargs (mkLLM sample_params, empty_world)).2.2 = [args]
      ∧ args !! "max_tokens" = Some (PyInt 16)
      ∧ args !! "temperature" = Some (PyInt 0).
Proof.
  split; [reflexivity|].
  destruct (call_submits_disjoint_union sample_to_json
              (constant_provider (inr sample_response)) "hi" fresh_kwargs
              (mkLLM sample_params) empty_world eq_refl) as [H _].
  destruct H as (Hcalls & Hkw & Hjson & _).
  { apply (bool_decide_unpack _). vm_compute. exact I. }
  eexists. split; [exact Hcalls|]. split.
  - apply Hkw. reflexivity.
  - apply Hjson. vm_compute. reflexivity.
Defined.

(** C1, refuted as stated. The configuration serializes the key
    ["temperature"] and the caller passes it as a keyword argument too:
    the call does not return, it raises [TypeError], and the provider
    receives no request, hence no value for that key. *)
Lemma extra_params_collision_raises :
  is_Some (sample_to_json false (updated_params "hi" sample_params) !! "temperature")
  ∧ is_Some (colliding_kwargs !! "temperature")
  ∧ (__call__ sample_to_json (constant_provider (inr sample_response)) "hi" true
       colliding_kwargs (mkLLM sample_params, empty_world)).1
    = inl (TypeError "got multiple values for keyword argument")
  ∧ provider_calls
      (__call__ sample_to_json (constant_provider (inr sample_response)) "hi" true
         colliding_kwargs (mkLLM sample_params, empty_world)).2.2 = [].
Proof.
  split; [eexists; vm_compute; reflexivity|].
  split; [eexists; vm_compute; reflexivity|].
  split; vm_compute; reflexivity.
Qed.

(** ** The log-probability field *)

(** With the flag set and a completed choice that carries data, the output
    binds ["logprobs"] to that data. *)
Lemma call_logprobs_field_example :
  (__call__ sample_to_json (constant_provider (inr sample_response)) "hi" true ∅
     (mkLLM logprobs_params, empty_world)).1
  = inr [ <[ "logprobs" := sample_logprobs ]> {[ "text" := PyStr "B" ]} ]
  ∧ ∃ o, [ <[ "logprobs" := sample_logprobs ]> ({[ "text" := PyStr "B" ]} : gmap string pyval) ]
           !! 0%nat = Some o
         ∧ o !! "logprobs" = Some sample_logprobs.
Proof.
  assert (Hout :
    (__call__ sample_to_json (constant_provider (inr sample_response)) "hi" true ∅
       (mkLLM logprobs_params, empty_world)).1
    = inr [ <[ "logprobs" := sample_logprobs ]> {[ "text" := PyStr "B" ]} ]).
  { vm_compute. reflexivity. }
  split; [exact Hout|].
  destruct (call_logprobs_field _ _ _ _ _ _ _ _ Hout) as (response & Hlast & _ & Hfield).
  assert (response = sample_response) as ->.
  { vm_compute in Hlast. by injection Hlast. }
  destruct (Hfield 0%nat choice_B eq_refl) as (o & Ho & _ & Hlp).
  exists o. split; [exact Ho|exact Hlp].
Defined.

(** C2, refuted as stated. The flag is set and the only choice carries no
    log-probability data: the output dictionary still has the key
    ["logprobs"], bound to [None]. *)
Lemma logprobs_present_with_none :
  params_logprobs logprobs_params = true
  ∧ logprobs choice_D = PyNone
  ∧ ∃ o,
      (__call__ sample_to_json (constant_provider (inr response_without_logprobs))
         "hi" true ∅ (mkLLM logprobs_params, empty_world)).1 = inr [o]
      ∧ o !! "logprobs" = Some PyNone.
Proof.
  split; [reflexivity|]. split; [reflexivity|].
  eexists. split; vm_compute; reflexivity.
Qed.

(** ** The class-level history *)

(** C3, evaluated where it fails. A first client is built and makes one call
    that returns. A second client, built afterwards from parameters of its
    own, has a history of one entry as soon as it exists: the entry of the
    first client's call, read through either instance. Before any call the
    history of a new client is empty. *)
Theorem history_shared_between_instances :
  let first := __init__ sample_params in
  let after :=
    (__call__ sample_to_json (constant_provider (inr sample_response)) "hi" true ∅
       (first, empty_world)).2 in
  let second := __init__ second_params in
  history first empty_world = []
  ∧ length (history second after.2) = 1
  ∧ h_prompt <$> history second after.2 = ["hi"]
  ∧ history second after.2 = history after.1 after.2.
Proof. cbv zeta. repeat split; vm_compute; reflexivity. Qed.

(** ** The history *)

(** The provider answers: the history holds the entry of the exchange. The
    provider raises: the history stays empty. *)
Lemma history_append_only_example :
  return_sorted (llm_params (mkLLM sample_params)) = false
  ∧ sample_to_json false
      (updated_params "hi" (with_only_completed true (llm_params (mkLLM sample_params))))
    ##ₘ ∅
  ∧ LLM_history
      (__call__ sample_to_json (constant_provider (inr sample_response)) "hi" true ∅
         (mkLLM sample_params, empty_world)).2.2
    = [mkHistoryEntry "hi" sample_response ∅
         (sample_to_json true (updated_params "hi" sample_params))]
  ∧ LLM_history
      (__call__ sample_to_json flaky_provider "hi" true ∅
         (mkLLM sample_params, empty_world)).2.2 = [].
Proof.
  assert (Hd : sample_to_json false
                 (updated_params "hi"
                    (with_only_completed true (llm_params (mkLLM sample_params))))
               ##ₘ (∅ : gmap string pyval)) by apply map_disjoint_empty_r.
  split; [reflexivity|]. split; [exact Hd|]. split.
  - exact (proj1 (proj1 (history_append_only sample_to_json
                           (constant_provider (inr sample_response)) "hi" ∅
                           (mkLLM sample_params) empty_world eq_refl Hd))).
  - exact (proj1 (proj1 (history_append_only sample_to_json flaky_provider "hi" ∅
                           (mkLLM sample_params) empty_world eq_refl Hd))).
Defined.

(** ** The fallback of the filter *)

(** Both choices of the response are truncated: the call returns both. *)
Lemma call_yields_a_choice_example :
  (∀ earlier args response,
     constant_provider (inr truncated_response) earlier args = inr response →
     choices response ≠ [])
  ∧ (__call__ sample_to_json (constant_provider (inr truncated_response)) "hi" true ∅
       (mkLLM sample_params, empty_world)).1
    = inr [ {[ "text" := PyStr "A" ]}; {[ "text" := PyStr "A" ]} ]
  ∧ [ ({[ "text" := PyStr "A" ]} : gmap string pyval); {[ "text" := PyStr "A" ]} ] ≠ [].
Proof.
  assert (Hprov : ∀ earlier args response,
     constant_provider (inr truncated_response) earlier args = inr response →
     choices response ≠ []).
  { intros earlier args response [= <-]. discriminate. }
  assert (Hout :
    (__call__ sample_to_json (constant_provider (inr truncated_response)) "hi" true ∅
       (mkLLM sample_params, empty_world)).1
    = inr [ {[ "text" := PyStr "A" ]}; {[ "text" := PyStr "A" ]} ]).
  { vm_compute. reflexivity. }
  split; [exact Hprov|]. split; [exact Hout|].
  exact (proj1 (call_yields_a_choice sample_to_json _ _ _ _ _ _ _ Hprov Hout)).
Defined.

(** ** The precondition assertions *)

(** [return_sorted] is set: the call raises and the world is untouched. *)
Lemma call_fails_precondition_example :
  (return_sorted (llm_params (mkLLM sorted_params)) = true ∨ true = false)
  ∧ (__call__ sample_to_json (constant_provider (inr sample_response)) "hi" true ∅
       (mkLLM sorted_params, empty_world)).1 = inl (AssertionError "for now")
  ∧ (__call__ sample_to_json (constant_provider (inr sample_response)) "hi" true ∅
       (mkLLM sorted_params, empty_world)).2.2 = empty_world.
Proof.
  assert (H : return_sorted (llm_params (mkLLM sorted_params)) = true ∨ true = false)
    by (left; reflexivity).
  split; [exact H|].
  destruct (call_fails_precondition sample_to_json
              (constant_provider (inr sample_response)) "hi" true ∅
              (mkLLM sorted_params) empty_world H) as (Hres & Hw & _).
  split; [exact Hres|exact Hw].
Defined.

(** ** The messages of the configuration *)

(** Three calls, of which the provider fails the first and the second
    raises [TypeError]: the three user messages are there all the same. *)
Lemma run_calls_accumulates_messages_example :
  return_sorted (llm_params (mkLLM sample_params)) = false
  ∧ Forall (λ c : string * bool * gmap string pyval, c.1.2 = true) three_calls
  ∧ messages_or_empty
      (messages
         (llm_params
            (run_calls sample_to_json flaky_provider three_calls
               (mkLLM sample_params, empty_world)).1))
    = [mkChatMessage "user" "p1"; mkChatMessage "user" "p2"; mkChatMessage "user" "p3"]
  ∧ prompt
      (llm_params
         (run_calls sample_to_json flaky_provider three_calls
            (mkLLM sample_params, empty_world)).1) = Some "p3".
Proof.
  assert (Hall : Forall (λ c : string * bool * gmap string pyval, c.1.2 = true) three_calls).
  { repeat constructor. }
  split; [reflexivity|]. split; [exact Hall|].
  destruct (run_calls_accumulates_messages sample_to_json flaky_provider three_calls
              (mkLLM sample_params) empty_world eq_refl Hall) as (Hm & _ & Hp).
  split; [exact Hm|exact Hp].
Defined.

(** C6, refuted as stated. One call with [only_completed] false: the
    assertion fails before the messages are updated, so the configuration
    holds no user message for the prompt and its prompt is not the call's. *)
Lemma failed_assertion_appends_no_message :
  messages
    (llm_params
       (run_calls sample_to_json (constant_provider (inr sample_response))
          [("p1", false, ∅)] (mkLLM sample_params, empty_world)).1) = None
  ∧ messages_or_empty
      (messages
         (llm_params
            (run_calls sample_to_json (constant_provider (inr sample_response))
               [("p1", false, ∅)] (mkLLM sample_params, empty_world)).1))
    ≠ messages_or_empty (messages sample_params) ++ [mkChatMessage "user" "p1"]
  ∧ prompt
      (llm_params
         (run_calls sample_to_json (constant_provider (inr sample_response))
            [("p1", false, ∅)] (mkLLM sample_params, empty_world)).1)
    ≠ Some "p1".
Proof. split; [reflexivity|]. split; vm_compute; discriminate. Qed.

(** ** The order of the output *)

(** A response with a completed, a truncated and a completed choice: the
    output holds the texts of the first and the third, in that order. *)
Lemma call_preserves_order_example :
  (__call__ sample_to_json (constant_provider (inr mixed_response)) "hi" true ∅
     (mkLLM sample_params, empty_world)).1
  = inr [ {[ "text" := PyStr "B" ]}; {[ "text" := PyStr "C" ]} ]
  ∧ ∃ response,
      filter_only_completed (choices response) = [choice_B; choice_C]
      ∧ filter_only_completed (choices response) `sublist_of` choices response.
Proof.
  assert (Hout :
    (__call__ sample_to_json (constant_provider (inr mixed_response)) "hi" true ∅
       (mkLLM sample_params, empty_world)).1
    = inr [ {[ "text" := PyStr "B" ]}; {[ "text" := PyStr "C" ]} ]).
  { vm_compute. reflexivity. }
  split; [exact Hout|].
  destruct (call_preserves_order _ _ _ _ _ _ _ _ Hout) as (response & Hlast & Hsub & _).
  assert (response = mixed_response) as ->.
  { vm_compute in Hlast. by injection Hlast. }
  exists mixed_response. split; [reflexivity|exact Hsub].
Defined.

(** * Further properties of the methods *)

(** ** The filter, on every input *)

(** Whatever the input, the filter returns choices of the input only, never
    more of them than it was given, and every choice that is not truncated,
    a choice with no finish reason included, is in the result. A truncated
    choice is returned only when every choice of the input is truncated, and
    then the result is the input. The result is empty only for the empty
    input. *)
Theorem filter_only_completed_every_input (choices : list Choices) :
  (∀ c, c ∈ choices → finish_reason c ≠ Some "length" →
        c ∈ filter_only_completed choices)
  ∧ (∀ c, c ∈ choices → finish_reason c = None → c ∈ filter_only_completed choices)
  ∧ (∀ c, c ∈ filter_only_completed choices → c ∈ choices)
  ∧ (length (filter_only_completed choices) ≤ length choices)%nat
  ∧ (∀ c, c ∈ filter_only_completed choices → finish_reason c = Some "length" →
        filter_only_completed choices = choices
        ∧ Forall (λ c', finish_reason c' = Some "length") choices)
  ∧ (filter_only_completed choices = [] ↔ choices = []).
Proof.
  assert (Hkeep : ∀ c, c ∈ choices → finish_reason c ≠ Some "length" →
                       c ∈ filter_only_completed choices).
  { intros c Hin Hc. destruct (decide (filter not_length choices = [])) as [H|H].
    - by rewrite filter_only_completed_fallback.
    - rewrite filter_only_completed_some by exact H.
      apply list_elem_of_filter. by split. }
  split; [exact Hkeep|]. split; [|split; [|split; [|split]]].
  - intros c Hin Hc. apply Hkeep; [exact Hin|]. by rewrite Hc.
  - intros c Hin. eapply sublist_subseteq; [apply filter_only_completed_sublist|exact Hin].
  - apply sublist_length, filter_only_completed_sublist.
  - intros c Hin Hc. destruct (decide (filter not_length choices = [])) as [H|H].
    + split; [by apply filter_only_completed_fallback|].
      apply Forall_forall. intros c' Hc'.
      destruct (decide (finish_reason c' = Some "length")) as [|Hne]; [done|].
      exfalso. eapply filter_nil_not_elem_of; [exact H|exact Hne|exact Hc'].
    + rewrite filter_only_completed_some in Hin by exact H.
      apply list_elem_of_filter in Hin as [Hnl _]. by destruct Hnl.
  - split.
    + intros Hnil. destruct (decide (choices = [])) as [|Hne]; [done|].
      by destruct (filter_only_completed_nonempty _ Hne).
    + by intros ->.
Qed.

(** ** The transformation, on every input *)

(** The loop of the transformation distributes over the concatenation of
    choice lists, yields nothing for no choice and one dictionary per
    choice; the dictionary at a position is built from the choice at that
    position alone, whatever the loop assigned before or after it. *)
Theorem transform_choices_compose (l1 l2 : list Choices) (flag : bool) :
  transform_choices_to_dspy_model_response (l1 ++ l2) flag
  = transform_choices_to_dspy_model_response l1 flag
    ++ transform_choices_to_dspy_model_response l2 flag
  ∧ transform_choices_to_dspy_model_response [] flag = []
  ∧ length (transform_choices_to_dspy_model_response l1 flag) = length l1
  ∧ (∀ i, transform_choices_to_dspy_model_response l1 flag !! i
          = dspy_choice flag <$> l1 !! i).
Proof.
  rewrite !transform_choices_map. split; [apply map_app|].
  split; [reflexivity|]. split; [apply length_map|].
  intros i. change (map ?f ?l) with (f <$> l). apply list_lookup_fmap.
Qed.

(** The keys of the output dictionaries: ["text"] alone when the flag is
    unset, ["text"] and ["logprobs"] when it is set, and no other key in
    either case. *)
Theorem transform_choices_keys (choices : list Choices) (flag : bool) :
  Forall (λ o : gmap string pyval,
            dom o = if flag then ({[ "text" ]} ∪ {[ "logprobs" ]} : gset string)
                    else {[ "text" ]})
    (transform_choices_to_dspy_model_response choices flag).
Proof.
  rewrite transform_choices_map.
  induction choices as [|c cs IH]; cbn [map]; constructor; [|exact IH].
  unfold dspy_choice. destruct flag.
  - rewrite dom_insert_L, dom_singleton_L. set_solver.
  - apply dom_singleton_L.
Qed.

(** With the flag set, the value bound to ["logprobs"] is never data that
    is false in Python's sense: it is the choice's data when that is true,
    and [None] in every other case (no data, an empty dictionary or list,
    zero, the empty string). *)
Theorem transform_choices_logprobs_value (choices : list Choices) :
  Forall2 (λ (c : Choices) (o : gmap string pyval),
             ∃ v, o !! "logprobs" = Some v
                  ∧ (v = PyNone ∨ truthy v = true)
                  ∧ (truthy (logprobs c) = true → v = logprobs c)
                  ∧ (truthy (logprobs c) = false → v = PyNone))
    choices (transform_choices_to_dspy_model_response choices true).
Proof.
  rewrite transform_choices_map.
  induction choices as [|c cs IH]; cbn [map]; constructor; [|exact IH].
  rewrite dspy_choice_logprobs. eexists. split; [reflexivity|].
  destruct (truthy (logprobs c)) eqn:Ht.
  - split; [by right|]. split; [done|discriminate].
  - split; [by left|]. split; [discriminate|done].
Qed.

(** An empty dictionary of log-probability data is given to the caller as
    [None]. *)
Example transform_empty_logprobs :
  transform_choices_to_dspy_model_response [choice_E] true
  = [ <[ "logprobs" := PyNone ]> {[ "text" := PyStr "E" ]} ].
Proof. vm_compute. reflexivity. Qed.

(** ** The methods in the world *)

Section MethodProperties.

Variable to_json : bool → LLMModelParams → gmap string pyval.
Variable completion :
  list (gmap string pyval) → gmap string pyval → string + ModelResponse.

(** The requests a call whose assertions pass sends to the provider. *)
Lemma call_passing_requests (prompt : string) (kwargs : gmap string pyval)
    (self : LLM) (w : World) :
  return_sorted (llm_params self) = false →
  to_json false (updated_params prompt (with_only_completed true (llm_params self)))
    ##ₘ kwargs →
  provider_calls (__call__ to_json completion prompt true kwargs (self, w)).2.2
  = provider_calls w
    ++ [to_json false (updated_params prompt (with_only_completed true (llm_params self)))
          ∪ kwargs].
Proof.
  intros Hrs Hd. rewrite call_run. cbv zeta. cbn [negb]. rewrite Hrs.
  destruct (decide (_ ##ₘ kwargs)); [|done].
  destruct (completion _ _); reflexivity.
Qed.

(** [update_messages_with_prompt] never raises, not even when the messages
    are [None]: it treats [None] and the empty list alike and starts from
    no message. It keeps the messages there were, in order, adds the user
    message last, sets the prompt, and touches neither the other attributes
    of the parameters nor the world. *)
Theorem update_messages_with_prompt_effect (text : string) (self : LLM) (w : World) :
  let r := update_messages_with_prompt text (self, w) in
  r.1 = inr tt
  ∧ r.2.2 = w
  ∧ prompt (llm_params r.2.1) = Some text
  ∧ (∃ old, messages (llm_params r.2.1) = Some (old ++ [mkChatMessage "user" text])
            ∧ (messages_truthy (messages (llm_params self)) = true →
               messages (llm_params self) = Some old)
            ∧ (messages_truthy (messages (llm_params self)) = false → old = []))
  ∧ only_completed (llm_params r.2.1) = only_completed (llm_params self)
  ∧ return_sorted (llm_params r.2.1) = return_sorted (llm_params self)
  ∧ params_logprobs (llm_params r.2.1) = params_logprobs (llm_params self)
  ∧ other_params (llm_params r.2.1) = other_params (llm_params self).
Proof.
  cbv zeta. rewrite update_messages_with_prompt_run.
  destruct self as [[pr ms oc rs lp other]]. cbn.
  repeat split; try reflexivity.
  exists (messages_or_empty ms). split; [reflexivity|].
  destruct ms as [[|m l]|]; cbn; split; try done.
Qed.

(** [log_usage] never raises and changes nothing but the log: it hands one
    record to the logger, the total token count, when the response has
    usage data, and none when it has not. *)
Theorem log_usage_effect (response : ModelResponse) (self : LLM) (w : World) :
  let r := log_usage response (self, w) in
  r.1 = inr tt
  ∧ r.2.1 = self
  ∧ LLM_history r.2.2 = LLM_history w
  ∧ provider_calls r.2.2 = provider_calls w
  ∧ debug_log r.2.2
    = debug_log w ++ match usage response with
                     | Some usage_data => [total_tokens usage_data]
                     | None => []
                     end
  ∧ (usage response = None → r.2.2 = w).
Proof.
  cbv zeta. unfold log_usage, logger_debug, ret.
  destruct (usage response); cbn; rewrite ?app_nil_r; repeat split; done.
Qed.

(** What a call logs. When the assertions pass and no keyword argument
    collides, the provider is called: if it answers, the log gains exactly
    the record of [log_usage] for that response, the total token count when
    the response has usage data and nothing when it has none; if it raises,
    the log is the one before the call. A call that sends the provider no
    request logs nothing. *)
Theorem call_logs_usage (text : string) (kwargs : gmap string pyval)
    (self : LLM) (w : World) :
  return_sorted (llm_params self) = false →
  to_json false (updated_params text (with_only_completed true (llm_params self)))
    ##ₘ kwargs →
  let p := updated_params text (with_only_completed true (llm_params self)) in
  let after := debug_log (__call__ to_json completion text true kwargs (self, w)).2.2 in
  match completion (provider_calls w) (to_json false p ∪ kwargs) with
  | inr response =>
      (∀ usage_data, usage response = Some usage_data →
         after = debug_log w ++ [total_tokens usage_data])
      ∧ (usage response = None → after = debug_log w)
  | inl _ => after = debug_log w
  end
  ∧ (∀ text' oc kwargs' self' w',
       provider_calls (__call__ to_json completion text' oc kwargs' (self', w')).2.2
       = provider_calls w' →
       debug_log (__call__ to_json completion text' oc kwargs' (self', w')).2.2
       = debug_log w').
Proof.
  intros Hrs Hd. cbv zeta. split.
  - rewrite call_run. cbv zeta. cbn [negb]. rewrite Hrs.
    destruct (decide (_ ##ₘ kwargs)); [|done].
    destruct (completion _ _) as [e|response]; cbn [fst snd debug_log]; [done|].
    unfold usage_records. split.
    + by intros usage_data ->.
    + intros ->. by rewrite app_nil_r.
  - intros pr oc kw s0 w0. rewrite call_run. cbv zeta.
    destruct oc; cbn [negb]; [|done].
    destruct (return_sorted (llm_params s0)); [done|].
    destruct (decide (_ ##ₘ kw)); [|done].
    destruct (completion _ _); cbn [fst snd provider_calls debug_log]; intros Heq;
      exfalso; apply (f_equal length) in Heq; rewrite length_app in Heq;
      cbn [length] in Heq; lia.
Qed.

(** The attributes of the configuration a call leaves alone, and the one
    it always overwrites: after a call, returned or raised, [only_completed]
    is the argument of that call (the assignment precedes the assertions
    and is not undone), while [return_sorted], the [logprobs] flag and the
    other parameters are those from before. *)
Theorem call_configuration_frame (prompt : string) (only_completed_arg : bool)
    (kwargs : gmap string pyval) (self : LLM) (w : World) :
  let after :=
    llm_params (__call__ to_json completion prompt only_completed_arg kwargs (self, w)).2.1 in
  only_completed after = only_completed_arg
  ∧ return_sorted after = return_sorted (llm_params self)
  ∧ params_logprobs after = params_logprobs (llm_params self)
  ∧ other_params after = other_params (llm_params self).
Proof.
  cbv zeta. rewrite call_run. cbv zeta.
  destruct only_completed_arg; cbn [negb]; [|done].
  destruct (return_sorted (llm_params self)) eqn:Hrs; [done|].
  destruct (decide (_ ##ₘ kwargs)); [|done].
  destruct (completion _ _); done.
Qed.

(** A failure of the provider reaches the caller as it is, and nothing is
    rolled back: when the assertions pass, no keyword argument collides and
    the provider raises, the call ends with the provider's exception; the
    request has been sent once, the history and the log are untouched, and
    the configuration keeps the prompt and the user message of the failed
    call. *)
Theorem call_propagates_provider_error (text : string) (kwargs : gmap string pyval)
    (self : LLM) (w : World) (e : string) :
  return_sorted (llm_params self) = false →
  to_json false (updated_params text (with_only_completed true (llm_params self)))
    ##ₘ kwargs →
  completion (provider_calls w)
    (to_json false (updated_params text (with_only_completed true (llm_params self)))
       ∪ kwargs) = inl e →
  let r := __call__ to_json completion text true kwargs (self, w) in
  r.1 = inl (ProviderError e)
  ∧ provider_calls r.2.2
    = provider_calls w
      ++ [to_json false (updated_params text (with_only_completed true (llm_params self)))
            ∪ kwargs]
  ∧ LLM_history r.2.2 = LLM_history w
  ∧ debug_log r.2.2 = debug_log w
  ∧ messages (llm_params r.2.1)
    = Some (messages_or_empty (messages (llm_params self)) ++ [mkChatMessage "user" text])
  ∧ prompt (llm_params r.2.1) = Some text.
Proof.
  intros Hrs Hd Hc. cbv zeta. rewrite call_run. cbv zeta. cbn [negb]. rewrite Hrs.
  destruct (decide (_ ##ₘ kwargs)); [|done]. rewrite Hc.
  cbn [fst snd provider_calls LLM_history debug_log llm_params]. done.
Qed.

(** One call sends the provider at most one request, and the requests sent
    before stay as they were. A call that ends with the provider's
    exception has sent exactly one request: it does not try again. *)
Theorem call_requests_at_most_once (prompt : string) (only_completed : bool)
    (kwargs : gmap string pyval) (self : LLM) (w : World) :
  let r := __call__ to_json completion prompt only_completed kwargs (self, w) in
  (provider_calls r.2.2 = provider_calls w
   ∨ ∃ args, provider_calls r.2.2 = provider_calls w ++ [args])
  ∧ provider_calls w `prefix_of` provider_calls r.2.2
  ∧ (length (provider_calls r.2.2) ≤ S (length (provider_calls w)))%nat
  ∧ (∀ e, r.1 = inl (ProviderError e) →
       length (provider_calls r.2.2) = S (length (provider_calls w)))
  ∧ (∀ out, r.1 = inr out →
       length (provider_calls r.2.2) = S (length (provider_calls w))).
Proof.
  cbv zeta. rewrite call_run. cbv zeta.
  assert (Hle : ∀ n : nat, (n ≤ S n)%nat) by (intros; lia).
  destruct only_completed; cbn [negb fst snd];
    [|split_and!; first [done | by left]].
  destruct (return_sorted (llm_params self)); cbn [fst snd];
    [split_and!; first [done | by left]|].
  destruct (decide (_ ##ₘ kwargs)); cbn [fst snd];
    [|split_and!; first [done | by left]].
  destruct (completion _ _); cbn [fst snd provider_calls];
    rewrite ?length_app; cbn [length];
    split_and!;
    first [right; by eexists | by apply prefix_app_r | lia | intros; lia].
Qed.

(** [request], and [basic_request] behind it, do not look at the flags the
    call asserts: whatever [only_completed] and [return_sorted] are, a
    request whose keyword arguments collide with no serialized key reaches
    the provider, and the two methods do the same. *)
Theorem request_skips_assertions (prompt : string) (kwargs : gmap string pyval)
    (self : LLM) (w : World) :
  to_json false (updated_params prompt (llm_params self)) ##ₘ kwargs →
  request to_json completion prompt kwargs (self, w)
  = basic_request to_json completion prompt kwargs (self, w)
  ∧ provider_calls (request to_json completion prompt kwargs (self, w)).2.2
    = provider_calls w ++ [to_json false (updated_params prompt (llm_params self)) ∪ kwargs]
  ∧ only_completed (llm_params (request to_json completion prompt kwargs (self, w)).2.1)
    = only_completed (llm_params self)
  ∧ return_sorted (llm_params (request to_json completion prompt kwargs (self, w)).2.1)
    = return_sorted (llm_params self).
Proof.
  intros Hd. unfold request. split; [reflexivity|].
  rewrite basic_request_run. cbv zeta.
  destruct (decide (_ ##ₘ kwargs)); [|done].
  destruct (completion _ _); done.
Qed.

(** A response that holds no choice is no error: when the assertions pass,
    no keyword argument collides and the provider answers with a response
    of zero choices, the call returns the empty list, the request has been
    sent and the exchange is recorded in the history like any other. *)
Theorem call_with_no_choice (text : string) (kwargs : gmap string pyval)
    (self : LLM) (w : World) (response : ModelResponse) :
  return_sorted (llm_params self) = false →
  to_json false (updated_params text (with_only_completed true (llm_params self)))
    ##ₘ kwargs →
  completion (provider_calls w)
    (to_json false (updated_params text (with_only_completed true (llm_params self)))
       ∪ kwargs) = inr response →
  choices response = [] →
  let r := __call__ to_json completion text true kwargs (self, w) in
  r.1 = inr []
  ∧ h_response <$> last (LLM_history r.2.2) = Some response
  ∧ length (LLM_history r.2.2) = S (length (LLM_history w))
  ∧ length (provider_calls r.2.2) = S (length (provider_calls w)).
Proof.
  intros Hrs Hd Hc Hnil. cbv zeta. rewrite call_run. cbv zeta. cbn [negb]. rewrite Hrs.
  destruct (decide (_ ##ₘ kwargs)); [|done]. rewrite Hc, Hnil.
  cbn [fst snd LLM_history provider_calls]. rewrite last_snoc, !length_app.
  cbn [length]. split; [reflexivity|]. split; [reflexivity|]. split; lia.
Qed.

(** A call never returns more dictionaries than the response holds choices;
    it returns fewer only when the response mixes truncated choices with
    choices that are not truncated. *)
Theorem call_output_length (prompt : string) (only_completed : bool)
    (kwargs : gmap string pyval) (self : LLM) (w : World)
    (out : list (gmap string pyval)) :
  (__call__ to_json completion prompt only_completed kwargs (self, w)).1 = inr out →
  ∃ response,
    h_response <$>
      last (LLM_history
              (__call__ to_json completion prompt only_completed kwargs (self, w)).2.2)
    = Some response
    ∧ (length out ≤ length (choices response))%nat
    ∧ ((length out < length (choices response))%nat →
       (∃ c, c ∈ choices response ∧ finish_reason c = Some "length")
       ∧ (∃ c, c ∈ choices response ∧ finish_reason c ≠ Some "length")).
Proof.
  intros Hout.
  destruct (call_success_inv _ _ _ _ _ _ _ _ Hout) as
    (response & _ & _ & _ & _ & -> & Hh).
  exists response. rewrite Hh, last_snoc, length_map.
  split; [reflexivity|]. split.
  - apply sublist_length, filter_only_completed_sublist.
  - intros Hlt.
    destruct (decide (filter not_length (choices response) = [])) as [Hnil|Hne].
    { rewrite filter_only_completed_fallback in Hlt by exact Hnil. lia. }
    rewrite filter_only_completed_some in Hlt by exact Hne. split.
    + destruct (decide (Forall not_length (choices response))) as [Hall|Hnall].
      * assert (filter not_length (choices response) = choices response) as Heq.
        { clear -Hall. induction Hall as [|c l Hc _ IH]; [reflexivity|].
          by rewrite filter_cons_True, IH. }
        rewrite Heq in Hlt. lia.
      * apply not_Forall_Exists in Hnall; [|apply _].
        apply Exists_exists in Hnall as (c & Hin & Hc). exists c. split; [exact Hin|].
        unfold not_length in Hc.
        by destruct (decide (finish_reason c = Some "length")).
    + destruct (filter not_length (choices response)) as [|c l] eqn:Hf; [done|].
      assert (Hin : c ∈ filter not_length (choices response)) by (rewrite Hf; left).
      apply list_elem_of_filter in Hin as [Hc Hin]. by exists c.
Qed.

(** Nothing is cached: of a sequence of calls that pass the assertions and
    bring no keyword argument, every call sends its own request to the
    provider, repeated prompts and calls after a failure included. *)
Theorem run_calls_requests_every_call
    (calls : list (string * bool * gmap string pyval)) (self : LLM) (w : World) :
  return_sorted (llm_params self) = false →
  Forall (λ c, c.1.2 = true ∧ c.2 = ∅) calls →
  length (provider_calls (run_calls to_json completion calls (self, w)).2)
  = (length (provider_calls w) + length calls)%nat
  ∧ provider_calls w `prefix_of`
      provider_calls (run_calls to_json completion calls (self, w)).2.
Proof.
  intros Hrs Hall. revert self w Hrs.
  induction Hall as [|[[pr oc] kw] calls [Hoc Hkw] _ IH]; intros self w Hrs.
  - cbn. split; [lia|done].
  - cbn in Hoc, Hkw. subst oc kw. cbn [run_calls length].
    pose proof (call_passing_requests pr ∅ self w Hrs (map_disjoint_empty_r _)) as Hreq.
    pose proof (call_passing_instance to_json completion pr ∅ self w Hrs) as Hinst.
    destruct (__call__ to_json completion pr true ∅ (self, w)) as [res [s1 w1]].
    cbn [fst snd] in *. subst s1.
    destruct (IH (mkLLM (updated_params pr (with_only_completed true (llm_params self))))
                w1 Hrs) as [Hlen Hpre]. split.
    + rewrite Hlen, Hreq, length_app. cbn [length]. lia.
    + etrans; [|exact Hpre]. rewrite Hreq. by apply prefix_app_r.
Qed.

(** The history follows the calls: after a sequence of calls, the prompts
    of the entries appended are prompts of the calls, in the order of the
    calls, one entry for each call that returned and none for the others. *)
Theorem run_calls_history_prompts
    (calls : list (string * bool * gmap string pyval)) (self : LLM) (w : World) :
  ∃ appended,
    LLM_history (run_calls to_json completion calls (self, w)).2
    = LLM_history w ++ appended
    ∧ (h_prompt <$> appended) `sublist_of` ((λ c, c.1.1) <$> calls)
    ∧ (length appended ≤ length calls)%nat.
Proof.
  revert self w. induction calls as [|[[pr oc] kw] calls IH]; intros self w.
  - exists []. cbn. rewrite app_nil_r. split; [done|]. split; [done|lia].
  - cbn [run_calls].
    pose proof (call_history to_json completion pr oc kw self w) as Hcall.
    cbv zeta in Hcall.
    destruct (__call__ to_json completion pr oc kw (self, w)) as [res [s1 w1]].
    cbn [fst snd] in *.
    destruct (IH s1 w1) as (appended & Hh & Hsub & Hlen).
    destruct Hcall as [(out & response & _ & _ & _ & Hw1)|[(e & _ & _ & _ & Hw1)|(e & _ & _ & Hw1)]].
    + eexists (_ :: appended). rewrite Hh, Hw1, <- app_assoc. split; [reflexivity|].
      rewrite !fmap_cons. cbn [h_prompt fst]. split; [by apply sublist_skip|].
      cbn [length]. lia.
    + exists appended. rewrite Hh, Hw1. split; [reflexivity|].
      rewrite fmap_cons. split; [by apply sublist_cons|]. cbn [length]. lia.
    + exists appended. rewrite Hh, Hw1. split; [reflexivity|].
      rewrite fmap_cons. split; [by apply sublist_cons|]. cbn [length]. lia.
Qed.

(** A client whose configuration has [return_sorted] set stays unusable:
    no call of any sequence reaches the provider, the world, the messages
    and the prompt stay as they were. *)
Theorem run_calls_with_return_sorted
    (calls : list (string * bool * gmap string pyval)) (self : LLM) (w : World) :
  return_sorted (llm_params self) = true →
  (run_calls to_json completion calls (self, w)).2 = w
  ∧ messages (llm_params (run_calls to_json completion calls (self, w)).1)
    = messages (llm_params self)
  ∧ prompt (llm_params (run_calls to_json completion calls (self, w)).1)
    = prompt (llm_params self)
  ∧ return_sorted (llm_params (run_calls to_json completion calls (self, w)).1) = true.
Proof.
  intros Hrs. revert self Hrs.
  induction calls as [|[[pr oc] kw] calls IH]; intros self Hrs; [done|].
  cbn [run_calls]. rewrite call_run. cbv zeta. rewrite Hrs.
  assert (Hstep : (if negb oc
                   then (inl (AssertionError "for now") : exn + list (gmap string pyval),
                         (mkLLM (with_only_completed oc (llm_params self)), w))
                   else (inl (AssertionError "for now"),
                         (mkLLM (with_only_completed oc (llm_params self)), w))).2
                  = (mkLLM (with_only_completed oc (llm_params self)), w))
    by (by destruct oc).
  rewrite Hstep. apply (IH (mkLLM (with_only_completed oc (llm_params self)))). exact Hrs.
Qed.

End MethodProperties.

(** ** The further properties on concrete clients *)

(** [return_sorted] is set and the request is sent all the same. *)
Lemma request_skips_assertions_example :
  return_sorted sorted_params = true
  ∧ sample_to_json false (updated_params "hi" (llm_params (mkLLM sorted_params))) ##ₘ ∅
  ∧ length
      (provider_calls
         (request sample_to_json (constant_provider (inr sample_response)) "hi" ∅
            (mkLLM sorted_params, empty_world)).2.2) = 1.
Proof.
  assert (Hd : sample_to_json false (updated_params "hi" (llm_params (mkLLM sorted_params)))
               ##ₘ (∅ : gmap string pyval)) by apply map_disjoint_empty_r.
  split; [reflexivity|]. split; [exact Hd|].
  destruct (request_skips_assertions sample_to_json
              (constant_provider (inr sample_response)) "hi" ∅ (mkLLM sorted_params)
              empty_world Hd) as (_ & Hreq & _).
  rewrite Hreq. reflexivity.
Defined.

(** The provider answers with no choice: the call returns the empty list. *)
Lemma call_with_no_choice_example :
  return_sorted (llm_params (mkLLM sample_params)) = false
  ∧ choices empty_response = []
  ∧ (__call__ sample_to_json (constant_provider (inr empty_response)) "hi" true ∅
       (mkLLM sample_params, empty_world)).1 = inr []
  ∧ length
      (LLM_history
         (__call__ sample_to_json (constant_provider (inr empty_response)) "hi" true ∅
            (mkLLM sample_params, empty_world)).2.2) = 1.
Proof.
  split; [reflexivity|]. split; [reflexivity|].
  destruct (call_with_no_choice sample_to_json (constant_provider (inr empty_response))
              "hi" ∅ (mkLLM sample_params) empty_world empty_response eq_refl
              (map_disjoint_empty_r _) eq_refl eq_refl) as (Hnil & _ & Hlen & _).
  split; [exact Hnil|exact Hlen].
Defined.

(** The provider answers with usage data: one record, the token count. *)
Lemma call_logs_usage_example :
  return_sorted (llm_params (mkLLM sample_params)) = false
  ∧ usage sample_response = Some (mkUsage (PyInt 7))
  ∧ debug_log
      (__call__ sample_to_json (constant_provider (inr sample_response)) "hi" true ∅
         (mkLLM sample_params, empty_world)).2.2 = [PyInt 7].
Proof.
  split; [reflexivity|]. split; [reflexivity|].
  exact (proj1 (proj1 (call_logs_usage sample_to_json
                         (constant_provider (inr sample_response)) "hi" ∅
                         (mkLLM sample_params) empty_world eq_refl
                         (map_disjoint_empty_r _)))
           (mkUsage (PyInt 7)) eq_refl).
Defined.

(** The provider raises: its exception comes back and the message stays. *)
Lemma call_propagates_provider_error_example :
  return_sorted (llm_params (mkLLM sample_params)) = false
  ∧ flaky_provider (provider_calls empty_world)
      (sample_to_json false
         (updated_params "hi" (with_only_completed true (llm_params (mkLLM sample_params))))
       ∪ ∅) = inl "timeout"
  ∧ (__call__ sample_to_json flaky_provider "hi" true ∅
       (mkLLM sample_params, empty_world)).1 = inl (ProviderError "timeout")
  ∧ messages
      (llm_params
         (__call__ sample_to_json flaky_provider "hi" true ∅
            (mkLLM sample_params, empty_world)).2.1)
    = Some [mkChatMessage "user" "hi"].
Proof.
  split; [reflexivity|]. split; [reflexivity|].
  destruct (call_propagates_provider_error sample_to_json flaky_provider "hi" ∅
              (mkLLM sample_params) empty_world "timeout" eq_refl
              (map_disjoint_empty_r _) eq_refl) as (Hres & _ & _ & _ & Hmsg & _).
  split; [exact Hres|exact Hmsg].
Defined.

(** Three choices of which one is truncated: two dictionaries returned. *)
Lemma call_output_length_example :
  (__call__ sample_to_json (constant_provider (inr mixed_response)) "hi" true ∅
     (mkLLM sample_params, empty_world)).1
  = inr [ {[ "text" := PyStr "B" ]}; {[ "text" := PyStr "C" ]} ]
  ∧ ∃ response,
      length (choices response) = 3
      ∧ (∃ c, c ∈ choices response ∧ finish_reason c = Some "length").
Proof.
  assert (Hout :
    (__call__ sample_to_json (constant_provider (inr mixed_response)) "hi" true ∅
       (mkLLM sample_params, empty_world)).1
    = inr [ {[ "text" := PyStr "B" ]}; {[ "text" := PyStr "C" ]} ]).
  { vm_compute. reflexivity. }
  split; [exact Hout|].
  destruct (call_output_length _ _ _ _ _ _ _ _ Hout) as (response & Hlast & _ & Hmix).
  assert (response = mixed_response) as ->.
  { vm_compute in Hlast. by injection Hlast. }
  exists mixed_response. split; [reflexivity|].
  apply Hmix. cbn. lia.
Defined.

(** The same prompt three times, the first request failing: three requests. *)
Lemma run_calls_requests_every_call_example :
  return_sorted (llm_params (mkLLM sample_params)) = false
  ∧ Forall (λ c : string * bool * gmap string pyval, c.1.2 = true ∧ c.2 = ∅)
      repeated_calls
  ∧ length
      (provider_calls
         (run_calls sample_to_json flaky_provider repeated_calls
            (mkLLM sample_params, empty_world)).2) = 3.
Proof.
  assert (Hall : Forall (λ c : string * bool * gmap string pyval, c.1.2 = true ∧ c.2 = ∅)
                   repeated_calls).
  { repeat constructor. }
  split; [reflexivity|]. split; [exact Hall|].
  exact (proj1 (run_calls_requests_every_call sample_to_json flaky_provider repeated_calls
                  (mkLLM sample_params) empty_world eq_refl Hall)).
Defined.

(** Three calls on a client with [return_sorted] set: nothing happened. *)
Lemma run_calls_with_return_sorted_example :
  return_sorted (llm_params (mkLLM sorted_params)) = true
  ∧ (run_calls sample_to_json (constant_provider (inr sample_response)) three_calls
       (mkLLM sorted_params, empty_world)).2 = empty_world.
Proof.
  split; [reflexivity|].
  exact (proj1 (run_calls_with_return_sorted sample_to_json
                  (constant_provider (inr sample_response)) three_calls
                  (mkLLM sorted_params) empty_world eq_refl)).
Defined.
